(** * Course-Helper backend: the Express application of [src/api]

    A shallow embedding of [src/api/index.js] and
    [src/api/middlewares/authMiddleware.js].  Route handlers are programs
    over the calls they make to the outside (token library, table store,
    identity provider, image CDN); a world answers the calls. *)

From Stdlib Require Import ZArith Lia String Ascii List.
From Stdlib Require Import Floats.SpecFloat.
From stdpp Require Import base option list strings pretty gmap.

Open Scope string_scope.

(** ** JavaScript values *)

(** Values that reach the handlers: what [JSON.parse] builds from a request
    body, plus [undefined] for an absent property.  Numbers are IEEE-754
    doubles, kept as [spec_float]. *)
#[warnings="-register-all"]
Inductive JsVal : Type :=
| JUndefined
| JNull
| JBool (b : bool)
| JNum (x : spec_float)
| JStr (s : string)
| JArr (items : list JsVal)
| JObj (props : list (string * JsVal)).

(** [ToBoolean]: what [!v] and [if (v)] test. *)
Definition truthy (v : JsVal) : bool :=
  match v with
  | JUndefined | JNull => false
  | JBool b => b
  | JNum (S754_zero _) | JNum S754_nan => false
  | JNum _ => true
  | JStr s => negb (String.eqb s "")
  | JArr _ | JObj _ => true
  end.

Definition falsy (v : JsVal) : bool := negb (truthy v).

(** Structural equality of values, decided by recursion on the first. *)
Fixpoint JsVal_eqb (a b : JsVal) {struct a} : bool :=
  match a, b with
  | JUndefined, JUndefined => true
  | JNull, JNull => true
  | JBool x, JBool y => Bool.eqb x y
  | JNum x, JNum y =>
      match x, y with
      | S754_zero s, S754_zero t => Bool.eqb s t
      | S754_infinity s, S754_infinity t => Bool.eqb s t
      | S754_nan, S754_nan => true
      | S754_finite s m e, S754_finite t n f =>
          Bool.eqb s t && Pos.eqb m n && Z.eqb e f
      | _, _ => false
      end
  | JStr s, JStr t => String.eqb s t
  | JArr l, JArr r =>
      (fix go (l r : list JsVal) {struct l} : bool :=
         match l, r with
         | [], [] => true
         | x :: l', y :: r' => JsVal_eqb x y && go l' r'
         | _, _ => false
         end) l r
  | JObj l, JObj r =>
      (fix go (l r : list (string * JsVal)) {struct l} : bool :=
         match l, r with
         | [], [] => true
         | (k, x) :: l', (j, y) :: r' =>
             String.eqb k j && JsVal_eqb x y && go l' r'
         | _, _ => false
         end) l r
  | _, _ => false
  end.

(** ** JavaScript strings *)

(** [s.split(" ")]: the pieces between single spaces; never empty. *)
Fixpoint split_space (s : string) : list string :=
  match s with
  | EmptyString => [""]
  | String c rest =>
      if Ascii.eqb c " "%char then "" :: split_space rest
      else match split_space rest with
           | piece :: pieces => String c piece :: pieces
           | [] => [String c ""]
           end
  end.

(** [s.includes(sub)]. *)
Fixpoint includes (s sub : string) : bool :=
  String.prefix sub s ||
  match s with
  | EmptyString => false
  | String _ rest => includes rest sub
  end.

(** [buffer.toString("base64")] of Node's [Buffer]. *)
Definition base64_alphabet : string :=
  "ABCDEFGHIJKLMNOPQRSTUVWXYZabcdefghijklmnopqrstuvwxyz0123456789+/".

Definition base64_digit (n : N) : string :=
  match String.get (N.to_nat n) base64_alphabet with
  | Some c => String c ""
  | None => ""
  end.

Fixpoint base64 (bytes : list Byte.byte) : string :=
  match bytes with
  | [] => ""
  | [a] =>
      let n := (Byte.to_N a * 65536)%N in
      base64_digit (N.shiftr n 18) +:+
      base64_digit (N.land (N.shiftr n 12) 63) +:+ "=="
  | [a; b] =>
      let n := (Byte.to_N a * 65536 + Byte.to_N b * 256)%N in
      base64_digit (N.shiftr n 18) +:+
      base64_digit (N.land (N.shiftr n 12) 63) +:+
      base64_digit (N.land (N.shiftr n 6) 63) +:+ "="
  | a :: b :: c :: rest =>
      let n := (Byte.to_N a * 65536 + Byte.to_N b * 256 + Byte.to_N c)%N in
      base64_digit (N.shiftr n 18) +:+
      base64_digit (N.land (N.shiftr n 12) 63) +:+
      base64_digit (N.land (N.shiftr n 6) 63) +:+
      base64_digit (N.land n 63) +:+ base64 rest
  end.

(** ** Requests and responses *)

(** What a handler sends: [res.json(v)] or [res.send(text)]. *)
Inductive Body : Type :=
| BJson (v : JsVal)
| BText (s : string).

Record Response : Type := { status : Z; res_body : Body }.

(** [res.status(code).json(v)] and [res.status(code).send(text)];
    a bare [res.json] / [res.send] keeps Express' default status 200. *)
Definition json (code : Z) (v : JsVal) : Response :=
  {| status := code; res_body := BJson v |}.
Definition send (code : Z) (text : string) : Response :=
  {| status := code; res_body := BText text |}.

(** The object literal [{ key: "text" }]. *)
Definition obj1 (key text : string) : JsVal := JObj [(key, JStr text)].

(** [req.file] as multer's memory storage leaves it. *)
Record File : Type := { mimetype : string; buffer : list Byte.byte }.

Record Request : Type := {
  authorization : option string;      (* req.headers.authorization *)
  params_id : string;                 (* req.params.id *)
  req_body : gmap string JsVal;       (* req.body, parsed JSON object *)
  file : option File;                 (* req.file *)
  user : JsVal                        (* req.user *)
}.

Definition set_user (req : Request) (decoded : JsVal) : Request :=
  {| authorization := authorization req; params_id := params_id req;
     req_body := req_body req; file := file req; user := decoded |}.

(** The same request sent with another [Authorization] header, or none. *)
Definition with_authorization (req : Request) (header : option string)
  : Request :=
  {| authorization := header; params_id := params_id req;
     req_body := req_body req; file := file req; user := user req |}.

(** Property read [o.k]: [undefined] when the object has no such key. *)
Definition prop (o : gmap string JsVal) (k : string) : JsVal :=
  default JUndefined (o !! k).

(** [!s] for a value that is a string or [undefined]. *)
Definition absent (s : option string) : bool :=
  match s with
  | None => true
  | Some s => String.eqb s ""
  end.

(** ** The outside: token library, table store, identity provider, CDN *)

(** The object [{ name, code, description, credit, image }]. *)
Record CourseFields : Type := {
  name : JsVal; code : JsVal; description : JsVal;
  credit : JsVal; image : JsVal
}.

(** A row of the [courses] table. *)
Record Course : Type := { id : string; fields : CourseFields }.

Definition course_json (c : Course) : JsVal :=
  JObj [("id", JStr (id c)); ("name", name (fields c));
        ("code", code (fields c)); ("description", description (fields c));
        ("credit", credit (fields c)); ("image", image (fields c))].

(** The [{ data, error }] pair every table query resolves to. *)
Record PostgrestError : Type := { pg_code : string; pg_message : string }.
Record PgReply : Type :=
  { data : option (list Course); error : option PostgrestError }.

Definition pg_error_json (e : PostgrestError) : JsVal :=
  JObj [("code", JStr (pg_code e)); ("message", JStr (pg_message e))].

(** The [{ data: { session }, error }] pair of the identity provider. *)
Record AuthError : Type := { auth_message : string }.
Record Session : Type := { access_token : string }.
Record AuthReply : Type :=
  { session : option Session; auth_error : option AuthError }.

Definition auth_error_json (e : AuthError) : JsVal :=
  JObj [("message", JStr (auth_message e))].

(** What [cloudinary.uploader.upload] resolves to. *)
Record UploadResponse : Type := { secure_url : string }.

(** [process.env], as far as the application reads it. *)
Record Env : Type := { SUPABASE_JWT_SECRET : JsVal; SuperSecretKey : JsVal }.

(** A call either returns, or throws (a rejected promise under [await]). *)
Inductive Outcome (A : Type) : Type :=
| Returns (a : A)
| Throws (e : JsVal).
Arguments Returns {A} a.
Arguments Throws {A} e.

Inductive Call : Type :=
| JwtVerify (token : string) (secret : JsVal)
| JwtSign (payload : JsVal) (secret : JsVal) (expiresIn : string)
| CoursesSelect
| CoursesInsert (row : CourseFields)
| CoursesUpdate (row : CourseFields) (eq_id : string)
| CoursesDelete (eq_id : string)
| AuthSignUp (email password : JsVal)
| AuthSignIn (email password : JsVal)
| CloudinaryUpload (fileStr folder : string).

Definition Result (c : Call) : Type :=
  match c with
  | JwtVerify _ _ => JsVal
  | JwtSign _ _ _ => string
  | CoursesSelect | CoursesInsert _ | CoursesUpdate _ _ | CoursesDelete _ =>
      PgReply
  | AuthSignUp _ _ | AuthSignIn _ _ => AuthReply
  | CloudinaryUpload _ _ => UploadResponse
  end.

(** Calls that reach the table store. *)
Definition is_store_call (c : Call) : bool :=
  match c with
  | CoursesSelect | CoursesInsert _ | CoursesUpdate _ _ | CoursesDelete _ =>
      true
  | _ => false
  end.

(** Calls that write to the table store. *)
Definition is_store_write (c : Call) : bool :=
  match c with
  | CoursesInsert _ | CoursesUpdate _ _ | CoursesDelete _ => true
  | _ => false
  end.

Definition is_jwt_call (c : Call) : bool :=
  match c with
  | JwtVerify _ _ | JwtSign _ _ _ => true
  | _ => false
  end.

(** ** Programs *)

(** A program makes calls and continues with their outcome. *)
Inductive Prog (A : Type) : Type :=
| Ret (a : A)
| Do (c : Call) (k : Outcome (Result c) -> Prog A).
Arguments Ret {A} a.
Arguments Do {A} c k.

(** JavaScript code: a program that returns or throws. *)
Definition JS (A : Type) : Type := Prog (Outcome A).

Definition ret {A} (a : A) : JS A := Ret (Returns a).
Definition throw {A} (e : JsVal) : JS A := Ret (Throws e).
Definition call (c : Call) : JS (Result c) := Do c (fun o => Ret o).

Fixpoint bind {A B} (m : JS A) (f : A -> JS B) : JS B :=
  match m with
  | Ret (Returns a) => f a
  | Ret (Throws e) => Ret (Throws e)
  | Do c k => Do c (fun o => bind (k o) f)
  end.

(** [try { m } catch (err) { h err }]. *)
Fixpoint try_catch {A} (m : JS A) (h : JsVal -> JS A) : JS A :=
  match m with
  | Ret (Returns a) => Ret (Returns a)
  | Ret (Throws e) => h e
  | Do c k => Do c (fun o => try_catch (k o) h)
  end.

Notation "'let*' x ':=' m 'in' k" := (bind m (fun x => k))
  (at level 10, x name, m at level 100, k at level 200,
   format "'[v' 'let*'  x  ':='  m  'in' '/' k ']'").

Definition TypeError : JsVal := JObj [("name", JStr "TypeError")].

(** [data[0]] and [data.length]; both throw on [null]. *)
Definition first_row (d : option (list Course)) : JS JsVal :=
  match d with
  | None => throw TypeError
  | Some l => ret (from_option course_json JUndefined (l !! 0%nat))
  end.

Definition row_count (d : option (list Course)) : JS nat :=
  match d with
  | None => throw TypeError
  | Some l => ret (length l)
  end.

(** [res.json(data)] of a whole result set. *)
Definition rows_json (d : option (list Course)) : JsVal :=
  match d with
  | None => JNull
  | Some l => JArr (map course_json l)
  end.

(** [null] and [undefined], the values a property cannot be read from. *)
Definition nullish (v : JsVal) : bool :=
  match v with
  | JUndefined | JNull => true
  | _ => false
  end.

(** The own property [k] of an object literal. *)
Fixpoint obj_get (props : list (string * JsVal)) (k : string) : JsVal :=
  match props with
  | [] => JUndefined
  | (j, v) :: rest => if String.eqb j k then v else obj_get rest k
  end.

(** [err.message], as the catch blocks that log it read it: a TypeError on
    [null] and [undefined], the property of an object, [undefined] on the
    other values. *)
Definition message_of (err : JsVal) : JS JsVal :=
  match err with
  | JUndefined | JNull => throw TypeError
  | JObj props => ret (obj_get props "message")
  | _ => ret JUndefined
  end.

(** ** The application *)

Section App.

Variable env : Env.

(** *** [middlewares/authMiddleware.js] *)

(** The gate answers itself ([inl]) or calls [next()] with the decoded
    payload stored in [req.user] ([inr]). *)
Definition authenticateToken (req : Request) : JS (Response + Request) :=
  let authHeader := authorization req in
  if absent authHeader then
    ret (inl (json 401 (obj1 "error" "Authorization header missing")))
  else
    let token := split_space (default "" authHeader) !! 1%nat in
    if absent token then
      ret (inl (json 401 (obj1 "error" "Access token required")))
    else
      try_catch
        (let* decoded :=
           call (JwtVerify (default "" token) (SUPABASE_JWT_SECRET env)) in
         ret (inr (set_user req decoded)))
        (fun err =>
           ret (inl (json 403 (obj1 "error" "Invalid or expired token")))).

(** [app.METHOD(path, authenticateToken, handler)]. *)
Definition gated (handler : Request -> JS Response) (req : Request)
  : JS Response :=
  let* r := authenticateToken req in
  match r with
  | inl res => ret res
  | inr req' => handler req'
  end.

(** *** [index.js] *)

(** The destructuring [const { name, code, description, credit, image }
    = req.body]. *)
Definition body_fields (req : Request) : CourseFields :=
  {| name := prop (req_body req) "name";
     code := prop (req_body req) "code";
     description := prop (req_body req) "description";
     credit := prop (req_body req) "credit";
     image := prop (req_body req) "image" |}.

(** The keys the destructuring reads. *)
Definition required_fields : list string :=
  ["name"; "code"; "description"; "credit"; "image"].

(** [!name || !code || !description || !credit || !image]. *)
Definition some_field_missing (f : CourseFields) : bool :=
  falsy (name f) || falsy (code f) || falsy (description f)
  || falsy (credit f) || falsy (image f).

Definition upload_image (req : Request) : JS Response :=
  try_catch
    (match file req with
     | None => throw TypeError
     | Some f =>
         let fileStr :=
           "data:" +:+ mimetype f +:+ ";base64," +:+ base64 (buffer f) in
         let* uploadedResponse := call (CloudinaryUpload fileStr "courses") in
         ret (json 200
                (JObj [("imageUrl", JStr (secure_url uploadedResponse))]))
     end)
    (fun err => ret (json 500 (obj1 "error" "Image upload failed"))).

Definition get_root (req : Request) : JS Response :=
  try_catch
    (ret (json 200 (JStr "Our backend is running!")))
    (fun error =>
       let* message := message_of error in
       ret (send 500 "Server error")).

Definition get_courses (req : Request) : JS Response :=
  try_catch
    (let* r := call CoursesSelect in
     match error r with
     | Some e => throw (pg_error_json e)
     | None => ret (json 200 (rows_json (data r)))
     end)
    (fun error =>
       let* message := message_of error in
       ret (send 500 "Server error")).

Definition post_courses (req : Request) : JS Response :=
  let f := body_fields req in
  if some_field_missing f then
    ret (json 400 (obj1 "error" "All fields must be provided"))
  else
    try_catch
      (let* r := call (CoursesInsert f) in
       match error r with
       | Some e =>
           if String.eqb (pg_code e) "23505" then
             ret (json 400
                    (obj1 "error" "Course with this code already exists"))
           else throw (pg_error_json e)
       | None =>
           let* row := first_row (data r) in
           ret (json 201 row)
       end)
      (fun err => ret (json 500 (obj1 "error" "Failed to add course"))).

Definition put_course (req : Request) : JS Response :=
  let id := params_id req in
  let f := body_fields req in
  if some_field_missing f then
    ret (json 400 (obj1 "error" "All fields must be provided"))
  else
    try_catch
      (let* r := call (CoursesUpdate f id) in
       match error r with
       | Some e => throw (pg_error_json e)
       | None =>
           let* n := row_count (data r) in
           if Nat.eqb n 0 then
             ret (json 404 (obj1 "error" "Course not found"))
           else
             let* row := first_row (data r) in
             ret (json 200 row)
       end)
      (fun err =>
         let* message := message_of err in
         ret (json 500 (obj1 "error" "Failed to update course"))).

Definition delete_course (req : Request) : JS Response :=
  let id := params_id req in
  try_catch
    (let* r := call (CoursesDelete id) in
     match error r with
     | Some e => throw (pg_error_json e)
     | None =>
         let* n := row_count (data r) in
         if Nat.eqb n 0 then ret (send 404 "Course not found")
         else ret (send 200 "Course deleted successfully")
     end)
    (fun error =>
       let* message := message_of error in
       ret (send 500 "Server error")).

Definition register (req : Request) : JS Response :=
  let username := prop (req_body req) "username" in
  let password := prop (req_body req) "password" in
  try_catch
    (let* r := call (AuthSignUp username password) in
     match auth_error r with
     | Some e =>
         if includes (auth_message e) "already registered" then
           ret (json 400 (obj1 "message" "Username already exists"))
         else throw (auth_error_json e)
     | None => ret (json 201 (obj1 "message" "User registered successfully"))
     end)
    (fun err => ret (json 500 (obj1 "message" "Internal Server Error"))).

Definition generateToken (payload : JsVal) : JS string :=
  let secretKey := SuperSecretKey env in
  let expiration := "1h" in
  call (JwtSign payload secretKey expiration).

Definition login (req : Request) : JS Response :=
  let username := prop (req_body req) "username" in
  let password := prop (req_body req) "password" in
  try_catch
    (let* r := call (AuthSignIn username password) in
     match auth_error r with
     | Some e =>
         if includes (auth_message e) "Invalid login credentials" then
           ret (json 400 (obj1 "message" "Invalid credentials"))
         else throw (auth_error_json e)
     | None =>
         match session r with
         | None => throw TypeError
         | Some s =>
             let token := access_token s in
             ret (json 200 (JObj [("token", JStr token)]))
         end
     end)
    (fun err => ret (json 500 (obj1 "message" "Internal Server Error"))).

(** The routing table, in registration order. *)
Inductive Route : Type :=
| POST_upload_image
| GET_root
| GET_courses
| POST_courses
| PUT_courses_id
| DELETE_courses_id
| POST_register
| POST_login.

Definition app (r : Route) : Request -> JS Response :=
  match r with
  | POST_upload_image => upload_image
  | GET_root => get_root
  | GET_courses => get_courses
  | POST_courses => gated post_courses
  | PUT_courses_id => gated put_course
  | DELETE_courses_id => gated delete_course
  | POST_register => register
  | POST_login => login
  end.

(** The routes that change the course table. *)
Definition mutating (r : Route) : bool :=
  match r with
  | POST_courses | PUT_courses_id | DELETE_courses_id => true
  | _ => false
  end.

(** The handler behind the gate of a mutating route. *)
Definition handler_of (r : Route) : Request -> JS Response :=
  match r with
  | POST_courses => post_courses
  | PUT_courses_id => put_course
  | DELETE_courses_id => delete_course
  | _ => app r
  end.

End App.

(** ** Running a program against the outside *)

Record Ran (W A : Type) : Type :=
  { result : A; final : W; trace : list Call }.
Arguments result {W A} r.
Arguments final {W A} r.
Arguments trace {W A} r.

Section Run.

Context {W : Type}.
Variable answer : forall c : Call, W -> Outcome (Result c) * W.

(** Each call is answered by the world, which may change; the calls made
    are recorded in order. *)
Fixpoint run {A} (p : Prog A) (w : W) : Ran W A :=
  match p with
  | Ret a => {| result := a; final := w; trace := [] |}
  | Do c k =>
      let ow := answer c w in
      let r := run (k (fst ow)) (snd ow) in
      {| result := result r; final := final r; trace := c :: trace r |}
  end.

End Run.

(** ** The course table *)

(** Modelled from the spec: the hosted table behind [supabase.from("courses")]
    is not part of the repository.  The spec gives it an opaque
    server-assigned [id] per record and a [code] that is unique, enforced by
    the store, a violation surfacing as a conflict (Postgres error 23505).
    Ids are drawn from a counter that never goes back. *)
Record Store : Type := { rows : list Course; next_id : N }.

Definition has_id (i : string) (r : Course) : bool := String.eqb (id r) i.

Definition has_code (c : JsVal) (r : Course) : bool :=
  JsVal_eqb (code (fields r)) c.

Definition unique_violation : PostgrestError :=
  {| pg_code := "23505";
     pg_message := "duplicate key value violates unique constraint" |}.

Definition rejected (e : PostgrestError) : PgReply :=
  {| data := None; error := Some e |}.

Definition selected (l : list Course) : PgReply :=
  {| data := Some l; error := None |}.

(** [.select("*")] *)
Definition store_select (s : Store) : PgReply * Store :=
  (selected (rows s), s).

(** [.insert([row]).select()] *)
Definition store_insert (row : CourseFields) (s : Store) : PgReply * Store :=
  if existsb (has_code (code row)) (rows s) then
    (rejected unique_violation, s)
  else
    let c := {| id := pretty (next_id s); fields := row |} in
    (selected [c],
     {| rows := rows s ++ [c]; next_id := N.succ (next_id s) |}).

Definition replace_fields (i : string) (row : CourseFields) (r : Course)
  : Course :=
  if has_id i r then {| id := id r; fields := row |} else r.

(** [.update(row).eq("id", i).select()] *)
Definition store_update (row : CourseFields) (i : string) (s : Store)
  : PgReply * Store :=
  if existsb (has_id i) (rows s)
     && existsb (fun r => has_code (code row) r && negb (has_id i r)) (rows s)
  then (rejected unique_violation, s)
  else
    let rows' := map (replace_fields i row) (rows s) in
    (selected (List.filter (has_id i) rows'),
     {| rows := rows'; next_id := next_id s |}).

(** [.delete().eq("id", i).select()] *)
Definition store_delete (i : string) (s : Store) : PgReply * Store :=
  (selected (List.filter (has_id i) (rows s)),
   {| rows := List.filter (fun r => negb (has_id i r)) (rows s);
      next_id := next_id s |}).

(** What the store maintains: ids are distinct and were all drawn from the
    counter, codes are distinct. *)
Record store_ok (s : Store) : Prop := {
  ids_nodup : List.NoDup (map id (rows s));
  codes_nodup : List.NoDup (map (fun r => code (fields r)) (rows s));
  ids_drawn :
    forall r, In r (rows s) -> exists n, (n < next_id s)%N /\ id r = pretty n
}.

(** ** The world a request meets *)

(** Modelled from the spec: a store call can also fail for reasons of the
    service (the spec's ServiceError, an unclassified external-service
    failure).  The promise is rejected with some value, or the reply carries
    an error; the table is not changed. *)
Inductive Fault : Type :=
| Rejects (reason : JsVal)
| Refuses (e : PostgrestError).

(** The table, whether and how the store fails on a call, and how the token
    library, the identity provider and the CDN answer at the time of the
    request. *)
Record World : Type := {
  store : Store;
  store_fault : Call -> option Fault;
  jwt_verify : string -> JsVal -> Outcome JsVal;
  jwt_sign : JsVal -> JsVal -> string -> Outcome string;
  sign_up : JsVal -> JsVal -> Outcome AuthReply;
  sign_in : JsVal -> JsVal -> Outcome AuthReply;
  cdn_upload : string -> string -> Outcome UploadResponse
}.

Definition with_store (w : World) (s : Store) : World :=
  {| store := s; store_fault := store_fault w;
     jwt_verify := jwt_verify w; jwt_sign := jwt_sign w;
     sign_up := sign_up w; sign_in := sign_in w;
     cdn_upload := cdn_upload w |}.

Definition on_store (w : World) (c : Call) (op : Store -> PgReply * Store)
  : Outcome PgReply * World :=
  match store_fault w c with
  | Some (Rejects reason) => (Throws reason, w)
  | Some (Refuses e) => (Returns (rejected e), w)
  | None => (Returns (fst (op (store w))), with_store w (snd (op (store w))))
  end.

Definition answer (c : Call) (w : World) : Outcome (Result c) * World :=
  match c as c0 return Outcome (Result c0) * World with
  | JwtVerify token secret => (jwt_verify w token secret, w)
  | JwtSign payload secret expiresIn =>
      (jwt_sign w payload secret expiresIn, w)
  | CoursesSelect => on_store w CoursesSelect store_select
  | CoursesInsert row => on_store w (CoursesInsert row) (store_insert row)
  | CoursesUpdate row i =>
      on_store w (CoursesUpdate row i) (store_update row i)
  | CoursesDelete i => on_store w (CoursesDelete i) (store_delete i)
  | AuthSignUp email password => (sign_up w email password, w)
  | AuthSignIn email password => (sign_in w email password, w)
  | CloudinaryUpload fileStr folder => (cdn_upload w fileStr folder, w)
  end.

(** A request served by the application in a world. *)
Definition serve (env : Env) (r : Route) (req : Request) (w : World)
  : Ran World (Outcome Response) :=
  run answer (app env r req) w.

(** The token the gate takes from the header: the second piece between
    spaces, when there is one and it is not empty. *)
Definition presented_token (req : Request) : option string :=
  match authorization req with
  | None => None
  | Some h =>
      match split_space h !! 1%nat with
      | Some t => if String.eqb t "" then None else Some t
      | None => None
      end
  end.

(** The request carries a token that verifies against the shared secret. *)
Definition authorized (env : Env) (w : World) (req : Request) : Prop :=
  exists t decoded,
    presented_token req = Some t /\
    jwt_verify w t (SUPABASE_JWT_SECRET env) = Returns decoded.

(** The header has the form [Bearer <token>]. *)
Definition bearer_scheme (req : Request) : Prop :=
  exists t, authorization req = Some ("Bearer " +:+ t).

(** The gate lets the request through to the route handler. *)
Definition proceeds (env : Env) (w : World) (req : Request) : Prop :=
  exists req',
    result (run answer (authenticateToken env req) w) = Returns (inr req').

(** ** A sample deployment *)

Module Sample.

Definition env : Env :=
  {| SUPABASE_JWT_SECRET := JStr "shared-secret";
     SuperSecretKey := JUndefined |}.

Definition nine : JsVal := JNum (S754_finite false 9 0).
Definition zero : JsVal := JNum (S754_zero false).

Definition algorithms : CourseFields :=
  {| name := JStr "Algorithms"; code := JStr "CS345";
     description := JStr "Design and analysis"; credit := nine;
     image := JStr "https://cdn.example/cs345.png" |}.

Definition networks : CourseFields :=
  {| name := JStr "Networks"; code := JStr "CS425";
     description := JStr "Computer networks"; credit := nine;
     image := JStr "https://cdn.example/cs425.png" |}.

Definition compilers : CourseFields :=
  {| name := JStr "Compilers"; code := JStr "CS335";
     description := JStr "Compiler design"; credit := nine;
     image := JStr "https://cdn.example/cs335.png" |}.

(** Two courses, with ids 0 and 1. *)
Definition table : Store :=
  {| rows := [ {| id := "0"; fields := algorithms |};
               {| id := "1"; fields := networks |} ];
     next_id := 2 |}.

Definition payload : JsVal := JObj [("sub", JStr "student-7")].

Definition world : World :=
  {| store := table;
     store_fault := fun _ => None;
     jwt_verify := fun token secret =>
       if String.eqb token "good" && JsVal_eqb secret (JStr "shared-secret")
       then Returns payload
       else Throws (JObj [("name", JStr "JsonWebTokenError")]);
     jwt_sign := fun _ _ _ => Returns "signed";
     sign_up := fun email password =>
       if JsVal_eqb email (JStr "taken@iitk.ac.in") then
         Returns {| session := None;
                    auth_error :=
                      Some {| auth_message := "User already registered" |} |}
       else if JsVal_eqb password (JStr "123") then
         Returns {| session := None;
                    auth_error :=
                      Some {| auth_message :=
                        "Password should be at least 6 characters" |} |}
       else Returns {| session := None; auth_error := None |};
     sign_in := fun email password =>
       if JsVal_eqb password (JStr "right-password") then
         Returns {| session := Some {| access_token := "provider-token" |};
                    auth_error := None |}
       else
         Returns {| session := None;
                    auth_error :=
                      Some {| auth_message := "Invalid login credentials" |} |};
     cdn_upload := fun fileStr folder =>
       if String.eqb fileStr "data:image/png;base64,iVA=" then
         Returns {| secure_url := "https://res.cloudinary.example/a.png" |}
       else Throws (JObj [("http_code", JStr "400")]) |}.

Definition body_of (f : CourseFields) : gmap string JsVal :=
  list_to_map [("name", name f); ("code", code f);
               ("description", description f); ("credit", credit f);
               ("image", image f)].

Definition request (header : option string) (i : string)
  (b : gmap string JsVal) : Request :=
  {| authorization := header; params_id := i; req_body := b;
     file := None; user := JUndefined |}.

Definition credentials (username password : string) : Request :=
  request None ""
    (list_to_map [("username", JStr username); ("password", JStr password)]).

Definition png : File :=
  {| mimetype := "image/png"; buffer := [Byte.x89; Byte.x50] |}.

Definition upload_request (f : option File) : Request :=
  {| authorization := None; params_id := ""; req_body := ∅;
     file := f; user := JUndefined |}.

End Sample.

(** ** Vocabulary of the further properties *)


(** The one call a route handler makes to a service, when it makes one. *)
Definition route_call (r : Route) (req : Request) : option Call :=
  match r with
  | POST_upload_image =>
      match file req with
      | Some f =>
          Some (CloudinaryUpload
                  ("data:" +:+ mimetype f +:+ ";base64," +:+ base64 (buffer f))
                  "courses")
      | None => None
      end
  | GET_root => None
  | GET_courses => Some CoursesSelect
  | POST_courses => Some (CoursesInsert (body_fields req))
  | PUT_courses_id => Some (CoursesUpdate (body_fields req) (params_id req))
  | DELETE_courses_id => Some (CoursesDelete (params_id req))
  | POST_register =>
      Some (AuthSignUp (prop (req_body req) "username")
                       (prop (req_body req) "password"))
  | POST_login =>
      Some (AuthSignIn (prop (req_body req) "username")
                       (prop (req_body req) "password"))
  end.

(** A string without a space in it. *)
Fixpoint spaceless (s : string) : bool :=
  match s with
  | EmptyString => true
  | String c rest => negb (Ascii.eqb c " "%char) && spaceless rest
  end.

(** A string that is empty or begins with a space. *)
Definition ends_piece (s : string) : bool :=
  match s with
  | EmptyString => true
  | String c _ => Ascii.eqb c " "%char
  end.

(** A store call that failed: the promise was rejected, or the reply
    carries an error other than the unique-key violation. *)
Definition reply_failed (o : Outcome PgReply) : bool :=
  match o with
  | Throws _ => true
  | Returns reply =>
      match error reply with
      | Some e => negb (String.eqb (pg_code e) "23505")
      | None => false
      end
  end.

(** A call rejected with [null] or [undefined]. *)
Definition rejected_nullish {A} (o : Outcome A) : bool :=
  match o with
  | Throws e => nullish e
  | Returns _ => false
  end.


(** A store call that succeeded with the given result set. *)
Definition reply_data (o : Outcome PgReply) : option (option (list Course)) :=
  match o with
  | Returns reply =>
      match error reply with
      | None => Some (data reply)
      | Some _ => None
      end
  | Throws _ => None
  end.

(** ** Other behaviours of the outside *)

Module Outside.

(** Every call fails: the services cannot be reached. *)
Definition unreachable (c : Call) (u : unit) : Outcome (Result c) * unit :=
  (Throws (JObj [("message", JStr "fetch failed")]), tt).

(** Every call is rejected with [null]. *)
Definition rejects_null (c : Call) (u : unit) : Outcome (Result c) * unit :=
  (Throws JNull, tt).

(** The store answers every query with an empty result set and no error. *)
Definition no_rows (c : Call) (u : unit) : Outcome (Result c) * unit :=
  match c as c0 return Outcome (Result c0) * unit with
  | CoursesSelect => (Returns (selected []), tt)
  | CoursesInsert _ => (Returns (selected []), tt)
  | CoursesUpdate _ _ => (Returns (selected []), tt)
  | CoursesDelete _ => (Returns (selected []), tt)
  | _ => (Throws JNull, tt)
  end.

(** The sample world with a provider that accepts a sign-in without
    opening a session. *)
Definition sessionless : World :=
  {| store := store Sample.world;
     store_fault := store_fault Sample.world;
     jwt_verify := jwt_verify Sample.world;
     jwt_sign := jwt_sign Sample.world;
     sign_up := sign_up Sample.world;
     sign_in := fun _ _ =>
       Returns {| session := None; auth_error := None |};
     cdn_upload := cdn_upload Sample.world |}.



(** A body with the five fields of a course and a client-chosen id. *)
Definition body_with_id (f : CourseFields) (i : string)
  : gmap string JsVal :=
  <["id" := JStr i]> (Sample.body_of f).

End Outside.

(** * Properties *)

(** ** Values and strings *)

Lemma spec_float_eqb_eq (x y : spec_float) :
  match x, y with
  | S754_zero s, S754_zero t => Bool.eqb s t
  | S754_infinity s, S754_infinity t => Bool.eqb s t
  | S754_nan, S754_nan => true
  | S754_finite s m e, S754_finite t n f =>
      Bool.eqb s t && Pos.eqb m n && Z.eqb e f
  | _, _ => false
  end = true <-> x = y.
Proof.
  destruct x, y; simpl; split; intros H; try discriminate; try reflexivity.
  all: try (apply Bool.eqb_prop in H; congruence).
  all: try (inversion H; subst; apply Bool.eqb_reflx).
  - apply andb_prop in H as [H He]. apply andb_prop in H as [Hs Hm].
    apply Bool.eqb_prop in Hs. apply Pos.eqb_eq in Hm. apply Z.eqb_eq in He.
    congruence.
  - inversion H; subst.
    rewrite Bool.eqb_reflx, Pos.eqb_refl, Z.eqb_refl. reflexivity.
Qed.

Lemma JsVal_eqb_eq : forall a b, JsVal_eqb a b = true <-> a = b.
Proof.
  fix IH 1.
  intros [| | x | x | s | l | l] [| | y | y | t | r | r]; simpl;
    try (split; intros H; (discriminate || reflexivity)).
  - split; intros H.
    + apply Bool.eqb_prop in H; congruence.
    + inversion H; apply Bool.eqb_reflx.
  - rewrite spec_float_eqb_eq. split; congruence.
  - rewrite String.eqb_eq. split; congruence.
  - revert r. induction l as [|x l IHl]; intros [|y r];
      try (split; intros H; (discriminate || reflexivity)).
    rewrite andb_true_iff, IH, IHl. split.
    + intros [-> H]. congruence.
    + intros H; inversion H; auto.
  - revert r. induction l as [|[k x] l IHl]; intros [|[j y] r];
      try (split; intros H; (discriminate || reflexivity)).
    rewrite !andb_true_iff, IH, IHl, String.eqb_eq. split.
    + intros [[-> ->] H]. congruence.
    + intros H; inversion H; auto.
Qed.

Lemma JsVal_eqb_neq a b : JsVal_eqb a b = false <-> a <> b.
Proof.
  rewrite <- JsVal_eqb_eq. destruct (JsVal_eqb a b); split; congruence.
Qed.

Example split_space_bearer :
  split_space "Bearer abc.def" = ["Bearer"; "abc.def"].
Proof. reflexivity. Qed.

Example split_space_gap : split_space "Bearer  x" = ["Bearer"; ""; "x"].
Proof. reflexivity. Qed.

Example split_space_no_token : split_space "Bearer" = ["Bearer"].
Proof. reflexivity. Qed.

Example includes_registered :
  includes "User already registered" "already registered" = true.
Proof. reflexivity. Qed.

Example base64_padding :
  base64 [Byte.x4d; Byte.x61; Byte.x6e; Byte.x4d; Byte.x61] = "TWFuTWE=".
Proof. reflexivity. Qed.

(** The falsy values of a JSON body and of a missing key. *)
Lemma falsy_values (v : JsVal) :
  falsy v = true <->
  v = JUndefined \/ v = JNull \/ v = JBool false \/ v = JStr ""
  \/ (exists s, v = JNum (S754_zero s)) \/ v = JNum S754_nan.
Proof.
  unfold falsy. split.
  - destruct v as [| | [] | [] | s | |]; simpl; try discriminate; eauto 10.
    destruct (String.eqb_spec s ""); [subst; eauto 10 | discriminate].
  - intros [-> | [-> | [-> | [-> | [[s ->] | ->]]]]]; reflexivity.
Qed.

(** ** Programs *)

Lemma run_bind {W A B} (ans : forall c : Call, W -> Outcome (Result c) * W)
  (m : JS A) (f : A -> JS B) (w : W) :
  run ans (bind m f) w =
  match result (run ans m w) with
  | Returns a =>
      let r := run ans (f a) (final (run ans m w)) in
      {| result := result r; final := final r;
         trace := trace (run ans m w) ++ trace r |}
  | Throws e =>
      {| result := Throws e; final := final (run ans m w);
         trace := trace (run ans m w) |}
  end.
Proof.
  revert w. induction m as [[a|e]|c k IH]; intros w; simpl.
  - destruct (run ans (f a) w); reflexivity.
  - reflexivity.
  - rewrite IH.
    destruct (result (run ans (k (ans c w).1) (ans c w).2)); reflexivity.
Qed.

(** ** The gate *)

Lemma presented_token_Some req t :
  presented_token req = Some t <->
  exists h, authorization req = Some h /\
            split_space h !! 1%nat = Some t /\ t <> "".
Proof.
  unfold presented_token. split.
  - destruct (authorization req) as [h|]; [|discriminate].
    destruct (split_space h !! 1%nat) as [u|] eqn:E; [|discriminate].
    destruct (String.eqb_spec u ""); [discriminate|].
    intros [= <-]. eauto.
  - intros (h & -> & -> & Hne).
    destruct (String.eqb_spec t ""); congruence.
Qed.

Lemma gate_answers env w req t :
  presented_token req = Some t ->
  run answer (authenticateToken env req) w =
  {| result :=
       match jwt_verify w t (SUPABASE_JWT_SECRET env) with
       | Returns decoded => Returns (inr (set_user req decoded))
       | Throws _ =>
           Returns (inl (json 403 (obj1 "error" "Invalid or expired token")))
       end;
     final := w;
     trace := [JwtVerify t (SUPABASE_JWT_SECRET env)] |}.
Proof.
  intros (h & Hh & Ht & Hne)%presented_token_Some.
  unfold authenticateToken. rewrite Hh. simpl absent.
  destruct (String.eqb_spec h "") as [->|_]; [discriminate Ht|].
  simpl default. rewrite Ht. simpl absent.
  destruct (String.eqb_spec t ""); [congruence|].
  simpl. destruct (jwt_verify w t (SUPABASE_JWT_SECRET env)); reflexivity.
Qed.

(** Behind a passed gate the handler runs on the request with the decoded
    payload attached, in the same world. *)
Lemma gate_passes env w h req t decoded :
  presented_token req = Some t ->
  jwt_verify w t (SUPABASE_JWT_SECRET env) = Returns decoded ->
  run answer (gated env h req) w =
  {| result := result (run answer (h (set_user req decoded)) w);
     final := final (run answer (h (set_user req decoded)) w);
     trace := JwtVerify t (SUPABASE_JWT_SECRET env)
              :: trace (run answer (h (set_user req decoded)) w) |}.
Proof.
  intros Ht Hv. unfold gated.
  rewrite run_bind, (gate_answers env w req t Ht), Hv. reflexivity.
Qed.

Lemma gate_blocks env w h req res :
  result (run answer (authenticateToken env req) w) = Returns (inl res) ->
  run answer (gated env h req) w =
  {| result := Returns res;
     final := final (run answer (authenticateToken env req) w);
     trace := trace (run answer (authenticateToken env req) w) |}.
Proof.
  intros Hr. unfold gated. rewrite run_bind, Hr. simpl.
  rewrite app_nil_r. reflexivity.
Qed.

Lemma app_mutating env r :
  mutating r = true -> app env r = gated env (handler_of env r).
Proof. destruct r; simpl; intros H; (discriminate || reflexivity). Qed.

Lemma set_user_body req decoded :
  body_fields (set_user req decoded) = body_fields req.
Proof. reflexivity. Qed.

(** C1 at a request that is not under the Bearer scheme: the header
    [Basic good] carries a verifying token as its second piece, the gate
    lets it through, and the course is created. *)
Lemma C1_other_scheme_proceeds :
  let req := Sample.request (Some "Basic good") ""
               (Sample.body_of Sample.compilers) in
  proceeds Sample.env Sample.world req /\
  ~ bearer_scheme req /\
  exists res,
    result (serve Sample.env POST_courses req Sample.world) = Returns res /\
    status res = 201%Z.
Proof.
  split; [|split].
  - eexists. vm_compute. reflexivity.
  - intros [t Ht]. discriminate Ht.
  - eexists. split; [vm_compute; reflexivity | reflexivity].
Qed.

(** C1, amended: on the three mutating course routes the gate answers 401
    "Authorization header missing" when the header is absent (or empty),
    401 "Access token required" when the header has no non-empty second
    piece after a space, 403 when verifying that piece against the shared
    secret throws, and otherwise hands the request, with the decoded payload
    attached, to the route handler.  The first piece (the scheme) is not
    looked at.  In the three refusals the handler does not run. *)
Theorem C1_gate_on_mutating_routes env w r req :
  mutating r = true ->
  let out := serve env r req w in
  let secret := SUPABASE_JWT_SECRET env in
  (absent (authorization req) = true ->
     result out
       = Returns (json 401 (obj1 "error" "Authorization header missing"))
     /\ trace out = [] /\ final out = w)
  /\ (forall h, authorization req = Some h -> h <> "" ->
        absent (split_space h !! 1%nat) = true ->
        result out = Returns (json 401 (obj1 "error" "Access token required"))
        /\ trace out = [] /\ final out = w)
  /\ (forall h t e, authorization req = Some h ->
        split_space h !! 1%nat = Some t -> t <> "" ->
        jwt_verify w t secret = Throws e ->
        result out
          = Returns (json 403 (obj1 "error" "Invalid or expired token"))
        /\ trace out = [JwtVerify t secret] /\ final out = w)
  /\ (forall h t decoded, authorization req = Some h ->
        split_space h !! 1%nat = Some t -> t <> "" ->
        jwt_verify w t secret = Returns decoded ->
        let inner := run answer (handler_of env r (set_user req decoded)) w in
        result out = result inner
        /\ trace out = JwtVerify t secret :: trace inner
        /\ final out = final inner).
Proof.
  intros Hr out secret. subst out secret. unfold serve.
  rewrite (app_mutating env r Hr).
  split; [|split; [|split]].
  - intros Habs.
    assert (Hgate :
      run answer (authenticateToken env req) w =
      {| result :=
           Returns (inl (json 401
                           (obj1 "error" "Authorization header missing")));
         final := w; trace := [] |})
      by (unfold authenticateToken; rewrite Habs; reflexivity).
    rewrite (gate_blocks env w _ req _ (f_equal result Hgate)), Hgate.
    auto.
  - intros h Hh Hne Htok.
    assert (Hgate :
      run answer (authenticateToken env req) w =
      {| result :=
           Returns (inl (json 401 (obj1 "error" "Access token required")));
         final := w; trace := [] |}).
    { unfold authenticateToken. rewrite Hh. simpl absent.
      destruct (String.eqb_spec h ""); [congruence|].
      simpl default. rewrite Htok. reflexivity. }
    rewrite (gate_blocks env w _ req _ (f_equal result Hgate)), Hgate.
    auto.
  - intros h t e Hh Ht Hne Hv.
    assert (Hp : presented_token req = Some t)
      by (apply presented_token_Some; eauto).
    pose proof (gate_answers env w req t Hp) as Hgate. rewrite Hv in Hgate.
    rewrite (gate_blocks env w _ req _ (f_equal result Hgate)), Hgate.
    auto.
  - intros h t decoded Hh Ht Hne Hv. cbv zeta.
    assert (Hp : presented_token req = Some t)
      by (apply presented_token_Some; eauto).
    rewrite (gate_passes env w _ req t decoded Hp Hv). auto.
Qed.

Lemma C1_gate_on_mutating_routes_witness :
  let req := Sample.request (Some "Bearer good") "1" ∅ in
  mutating DELETE_courses_id = true /\
  result (serve Sample.env DELETE_courses_id req Sample.world)
  = Returns (send 200 "Course deleted successfully").
Proof.
  split; [reflexivity|].
  destruct (C1_gate_on_mutating_routes Sample.env Sample.world
              DELETE_courses_id (Sample.request (Some "Bearer good") "1" ∅)
              eq_refl) as (_ & _ & _ & H).
  destruct (H "Bearer good" "good" Sample.payload eq_refl eq_refl
              ltac:(discriminate) eq_refl) as (-> & _).
  vm_compute. reflexivity.
Defined.

(** ** The required-field check *)

Lemma falsy_field_is_missing req k :
  In k required_fields ->
  falsy (prop (req_body req) k) = true ->
  some_field_missing (body_fields req) = true.
Proof.
  unfold required_fields, some_field_missing, body_fields. simpl.
  intros [<- | [<- | [<- | [<- | [<- | []]]]]] ->;
    rewrite ?orb_true_r; reflexivity.
Qed.

Lemma post_courses_rejects (w : World) req :
  some_field_missing (body_fields req) = true ->
  run answer (post_courses req) w =
  {| result := Returns (json 400 (obj1 "error" "All fields must be provided"));
     final := w; trace := [] |}.
Proof. intros H. unfold post_courses. rewrite H. reflexivity. Qed.

Lemma put_course_rejects (w : World) req :
  some_field_missing (body_fields req) = true ->
  run answer (put_course req) w =
  {| result := Returns (json 400 (obj1 "error" "All fields must be provided"));
     final := w; trace := [] |}.
Proof. intros H. unfold put_course. rewrite H. reflexivity. Qed.

(** Whatever the gate decides, it leaves the world alone and makes no call
    to the store. *)
Lemma gate_shape env w req :
  final (run answer (authenticateToken env req) w) = w /\
  existsb is_store_call (trace (run answer (authenticateToken env req) w))
  = false /\
  ((exists res,
      result (run answer (authenticateToken env req) w) = Returns (inl res))
   \/ (exists t decoded,
         presented_token req = Some t /\
         jwt_verify w t (SUPABASE_JWT_SECRET env) = Returns decoded)).
Proof.
  destruct (presented_token req) as [t|] eqn:Ht.
  - rewrite (gate_answers env w req t Ht). simpl. repeat split.
    destruct (jwt_verify w t (SUPABASE_JWT_SECRET env)) eqn:Hv; eauto.
  - unfold presented_token in Ht. unfold authenticateToken.
    destruct (authorization req) as [h|]; simpl absent; [|simpl; eauto].
    destruct (String.eqb h ""); [simpl; eauto|]. simpl default.
    destruct (split_space h !! 1%nat) as [t|]; simpl absent; [|simpl; eauto].
    destruct (String.eqb t ""); [simpl; eauto | discriminate].
Qed.

(** A request the field check refuses never reaches the store, whether or
    not the gate lets it through. *)
Lemma refused_fields_no_store_call env w r req :
  r = POST_courses \/ r = PUT_courses_id ->
  some_field_missing (body_fields req) = true ->
  existsb is_store_call (trace (serve env r req w)) = false /\
  final (serve env r req w) = w.
Proof.
  intros Hr Hm. unfold serve.
  assert (Hg : app env r = gated env (handler_of env r))
    by (destruct Hr as [-> | ->]; reflexivity).
  rewrite Hg.
  destruct (gate_shape env w req) as (Hf & Htr & [[res Hres] | Hpass]).
  - rewrite (gate_blocks env w _ req res Hres). simpl. auto.
  - destruct Hpass as (t & decoded & Ht & Hv).
    rewrite (gate_passes env w _ req t decoded Ht Hv).
    destruct Hr as [-> | ->]; simpl handler_of.
    + rewrite post_courses_rejects by exact Hm. simpl. auto.
    + rewrite put_course_rejects by exact Hm. simpl. auto.
Qed.

(** C3: a POST /courses request with a valid bearer token in which one of
    name, code, description, credit, image is missing from the body is
    answered 400; no call reaches the store (the only call made is the token
    verification), so the store is as it was. *)
Theorem C3_missing_field_rejected env w req k :
  authorized env w req ->
  In k required_fields ->
  req_body req !! k = None ->
  let out := serve env POST_courses req w in
  result out = Returns (json 400 (obj1 "error" "All fields must be provided"))
  /\ existsb is_store_call (trace out) = false
  /\ store (final out) = store w.
Proof.
  intros (t & decoded & Ht & Hv) Hk Hnone out. subst out. unfold serve.
  simpl app. rewrite (gate_passes env w _ req t decoded Ht Hv).
  rewrite post_courses_rejects.
  - simpl. auto.
  - rewrite set_user_body. apply (falsy_field_is_missing req k Hk).
    unfold prop. rewrite Hnone. reflexivity.
Qed.

Lemma C3_missing_field_rejected_witness :
  let req := Sample.request (Some "Bearer good") ""
               (delete "image" (Sample.body_of Sample.compilers)) in
  let out := serve Sample.env POST_courses req Sample.world in
  result out = Returns (json 400 (obj1 "error" "All fields must be provided"))
  /\ existsb is_store_call (trace out) = false
  /\ store (final out) = Sample.table.
Proof.
  apply (C3_missing_field_rejected Sample.env Sample.world _ "image").
  - exists "good", Sample.payload. split; reflexivity.
  - do 4 right; left; reflexivity.
  - vm_compute. reflexivity.
Defined.

(** C10: on POST /courses and PUT /courses/:id the field check is a
    truthiness test: with a valid token, a body in which one of the five
    fields is present but falsy (empty string, 0, null, false) is answered
    400 like a missing field, with no call to the store.  In particular no
    request with credit 0, authorised or not, makes the store insert or
    update anything. *)
Theorem C10_falsy_field_rejected env w r req :
  r = POST_courses \/ r = PUT_courses_id ->
  let out := serve env r req w in
  (forall k v,
     authorized env w req ->
     In k required_fields -> req_body req !! k = Some v -> falsy v = true ->
     result out
       = Returns (json 400 (obj1 "error" "All fields must be provided"))
     /\ existsb is_store_call (trace out) = false
     /\ store (final out) = store w)
  /\ (forall s,
        req_body req !! "credit" = Some (JNum (S754_zero s)) ->
        existsb is_store_write (trace out) = false
        /\ existsb is_store_call (trace out) = false
        /\ store (final out) = store w).
Proof.
  intros Hr out. subst out. split.
  - intros k v (t & decoded & Ht & Hv) Hk Hkv Hfalsy.
    assert (Hm : some_field_missing (body_fields req) = true).
    { apply (falsy_field_is_missing req k Hk).
      unfold prop. rewrite Hkv. exact Hfalsy. }
    unfold serve.
    assert (Hg : app env r = gated env (handler_of env r))
      by (destruct Hr as [-> | ->]; reflexivity).
    rewrite Hg, (gate_passes env w _ req t decoded Ht Hv).
    destruct Hr as [-> | ->]; simpl handler_of.
    + rewrite post_courses_rejects by (rewrite set_user_body; exact Hm).
      simpl. auto.
    + rewrite put_course_rejects by (rewrite set_user_body; exact Hm).
      simpl. auto.
  - intros s Hc.
    assert (Hm : some_field_missing (body_fields req) = true).
    { apply (falsy_field_is_missing req "credit").
      - do 3 right; left; reflexivity.
      - unfold prop. rewrite Hc. reflexivity. }
    destruct (refused_fields_no_store_call env w r req Hr Hm) as [Hn Hf].
    rewrite Hf. repeat split; [|exact Hn].
    revert Hn. generalize (trace (serve env r req w)).
    induction l as [|c l IH]; [reflexivity|]. simpl.
    intros [Hc1 Hl]%orb_false_elim. rewrite (IH Hl), orb_false_r.
    destruct c; (discriminate || reflexivity).
Qed.

Lemma C10_falsy_field_rejected_witness :
  let req := Sample.request (Some "Bearer good") "1"
               (<["credit" := Sample.zero]>
                  (Sample.body_of Sample.compilers)) in
  let out := serve Sample.env PUT_courses_id req Sample.world in
  result out = Returns (json 400 (obj1 "error" "All fields must be provided"))
  /\ existsb is_store_call (trace out) = false
  /\ store (final out) = Sample.table.
Proof.
  refine (proj1 (C10_falsy_field_rejected Sample.env Sample.world
                   PUT_courses_id _ (or_intror eq_refl))
            "credit" Sample.zero _ _ _ _).
  - exists "good", Sample.payload. split; reflexivity.
  - do 3 right; left; reflexivity.
  - vm_compute. reflexivity.
  - reflexivity.
Defined.

(** ** The course table *)




Lemma has_code_false c r : has_code c r = false <-> code (fields r) <> c.
Proof. unfold has_code. apply JsVal_eqb_neq. Qed.













Lemma store_delete_ok i s :
  store_ok s -> store_ok (snd (store_delete i s)).
Proof.
  intros [Hi Hc Hd]. split; simpl.
  - revert Hi. generalize (rows s). induction l as [|r l IH]; simpl; [auto|].
    intros [Hr Hl]%List.NoDup_cons_iff. destruct (has_id i r); simpl; [auto|].
    apply List.NoDup_cons; [|auto].
    intros (x & Hx & Hin%filter_In)%in_map_iff. apply Hr. rewrite <- Hx.
    apply in_map. tauto.
  - revert Hc. generalize (rows s). induction l as [|r l IH]; simpl; [auto|].
    intros [Hr Hl]%List.NoDup_cons_iff. destruct (has_id i r); simpl; [auto|].
    apply List.NoDup_cons; [|auto].
    intros (x & Hx & Hin%filter_In)%in_map_iff. apply Hr. rewrite <- Hx.
    apply (in_map (fun r => code (fields r))). tauto.
  - intros r [Hr _]%filter_In. auto.
Qed.


Lemma with_store_same w : with_store w (store w) = w.
Proof. destruct w; reflexivity. Qed.


(** ** The course handlers, call by call *)

Lemma on_store_served w c op :
  store_fault w c = None ->
  on_store w c op
  = (Returns (fst (op (store w))), with_store w (snd (op (store w)))).
Proof. intros H. unfold on_store. rewrite H. reflexivity. Qed.




Ltac run_handler :=
  cbn [run try_catch bind call ret throw answer fst snd result final trace
       error data rejected selected].











Lemma put_course_conflict w req :
  some_field_missing (body_fields req) = false ->
  store_fault w (CoursesUpdate (body_fields req) (params_id req)) = None ->
  existsb (has_id (params_id req)) (rows (store w)) = true ->
  existsb (fun r => has_code (code (body_fields req)) r
                    && negb (has_id (params_id req) r))
          (rows (store w)) = true ->
  run answer (put_course req) w =
  {| result := Returns (json 500 (obj1 "error" "Failed to update course"));
     final := w;
     trace := [CoursesUpdate (body_fields req) (params_id req)] |}.
Proof.
  intros Hm Hs Hi Hc. unfold put_course. rewrite Hm. run_handler.
  rewrite (on_store_served w _ _ Hs).
  unfold store_update. rewrite Hi, Hc. cbn.
  rewrite with_store_same. reflexivity.
Qed.








(** C2 at an update to a code in use: course 1 is sent the code of course
    0.  The store refuses with 23505, as it does for the same body on
    create; create answers 400, update answers 500. *)
Theorem C2_update_conflict_is_500 :
  let body := Sample.body_of Sample.algorithms in
  let create := Sample.request (Some "Bearer good") "" body in
  let update := Sample.request (Some "Bearer good") "1" body in
  fst (store_insert (body_fields create) Sample.table)
    = rejected unique_violation
  /\ fst (store_update (body_fields update) "1" Sample.table)
     = rejected unique_violation
  /\ result (serve Sample.env POST_courses create Sample.world)
     = Returns (json 400
                  (obj1 "error" "Course with this code already exists"))
  /\ result (serve Sample.env PUT_courses_id update Sample.world)
     = Returns (json 500 (obj1 "error" "Failed to update course")).
Proof. repeat split; vm_compute; reflexivity. Qed.







(** ** Login, registration, upload *)

(** C7: POST /login is answered 400 "Invalid credentials" when the provider
    reports an error whose message contains "Invalid login credentials", and
    200 with a token when the provider accepts the credentials; the token is
    the access token of the provider's session, non-empty as issued.  The
    only call made is the sign-in: nothing is signed locally. *)
Theorem C7_login env w req :
  let username := prop (req_body req) "username" in
  let password := prop (req_body req) "password" in
  let out := serve env POST_login req w in
  (forall reply e,
     sign_in w username password = Returns reply ->
     auth_error reply = Some e ->
     includes (auth_message e) "Invalid login credentials" = true ->
     result out = Returns (json 400 (obj1 "message" "Invalid credentials")))
  /\ (forall reply s,
        sign_in w username password = Returns reply ->
        auth_error reply = None -> session reply = Some s ->
        access_token s <> "" ->
        exists token,
          result out = Returns (json 200 (JObj [("token", JStr token)]))
          /\ token = access_token s /\ token <> "")
  /\ trace out = [AuthSignIn username password]
  /\ (forall payload,
        trace (run answer (generateToken env payload) w)
        = [JwtSign payload (SuperSecretKey env) "1h"])
  /\ existsb is_jwt_call (trace out) = false.
Proof.
  intros username password out. subst username password out.
  unfold serve. simpl app. unfold login.
  cbn [run try_catch bind call answer fst snd result final trace].
  repeat split.
  - intros reply e -> -> ->. reflexivity.
  - intros reply s -> -> -> Hne. eexists. repeat split. exact Hne.
  - destruct (sign_in w _ _) as [reply|]; [|reflexivity].
    destruct (auth_error reply) as [e|].
    + destruct (includes _ _); reflexivity.
    + destruct (session reply); reflexivity.
  - destruct (sign_in w _ _) as [reply|]; [|reflexivity].
    destruct (auth_error reply) as [e|].
    + destruct (includes _ _); reflexivity.
    + destruct (session reply); reflexivity.
Qed.

Lemma C7_login_witness :
  result (serve Sample.env POST_login
            (Sample.credentials "asha@iitk.ac.in" "wrong") Sample.world)
  = Returns (json 400 (obj1 "message" "Invalid credentials"))
  /\ result (serve Sample.env POST_login
               (Sample.credentials "asha@iitk.ac.in" "right-password")
               Sample.world)
     = Returns (json 200 (JObj [("token", JStr "provider-token")])).
Proof.
  split.
  - refine (proj1 (C7_login Sample.env Sample.world _) _ _ _ _ _);
      [vm_compute; reflexivity | reflexivity | reflexivity].
  - destruct (proj1 (proj2 (C7_login Sample.env Sample.world
                (Sample.credentials "asha@iitk.ac.in" "right-password")))
                {| session := Some {| access_token := "provider-token" |};
                   auth_error := None |}
                {| access_token := "provider-token" |})
      as (token & -> & -> & _);
      [vm_compute; reflexivity | reflexivity | reflexivity | discriminate |].
    reflexivity.
Defined.

(** C8 at a provider error other than an existing identity: the provider
    refuses a short password; the identity is not reported as existing, and
    the answer is 500, not 201. *)
Lemma C8_other_provider_error :
  let req := Sample.credentials "new@iitk.ac.in" "123" in
  (exists reply e,
     sign_up Sample.world (prop (req_body req) "username")
       (prop (req_body req) "password") = Returns reply
     /\ auth_error reply = Some e
     /\ includes (auth_message e) "already registered" = false)
  /\ result (serve Sample.env POST_register req Sample.world)
     = Returns (json 500 (obj1 "message" "Internal Server Error")).
Proof.
  split.
  - eexists _, _. split; [vm_compute; reflexivity|]. split; reflexivity.
  - vm_compute. reflexivity.
Qed.

(** C8, amended: POST /register is answered 400 "Username already exists"
    when the provider reports an error whose message contains "already
    registered"; 201 with a success message, and no token in the body
    whatever session the provider returned, when the provider reports no
    error; any other provider error, or a failed call, is answered 500. *)
Theorem C8_register env w req :
  let username := prop (req_body req) "username" in
  let password := prop (req_body req) "password" in
  let out := serve env POST_register req w in
  (forall reply e,
     sign_up w username password = Returns reply ->
     auth_error reply = Some e ->
     includes (auth_message e) "already registered" = true ->
     result out
       = Returns (json 400 (obj1 "message" "Username already exists")))
  /\ (forall reply,
        sign_up w username password = Returns reply ->
        auth_error reply = None ->
        result out
          = Returns (json 201
                       (obj1 "message" "User registered successfully")))
  /\ (forall reply e,
        sign_up w username password = Returns reply ->
        auth_error reply = Some e ->
        includes (auth_message e) "already registered" = false ->
        result out
          = Returns (json 500 (obj1 "message" "Internal Server Error")))
  /\ (forall e,
        sign_up w username password = Throws e ->
        result out
          = Returns (json 500 (obj1 "message" "Internal Server Error")))
  /\ trace out = [AuthSignUp username password].
Proof.
  intros username password out. subst username password out.
  unfold serve. simpl app. unfold register.
  cbn [run try_catch bind call answer fst snd result final trace].
  repeat split.
  - intros reply e -> -> ->. reflexivity.
  - intros reply -> ->. reflexivity.
  - intros reply e -> -> ->. reflexivity.
  - intros e ->. reflexivity.
  - destruct (sign_up w _ _) as [reply|]; [|reflexivity].
    destruct (auth_error reply) as [e|]; [|reflexivity].
    destruct (includes _ _); reflexivity.
Qed.

Lemma C8_register_witness :
  result (serve Sample.env POST_register
            (Sample.credentials "taken@iitk.ac.in" "long-enough")
            Sample.world)
  = Returns (json 400 (obj1 "message" "Username already exists"))
  /\ result (serve Sample.env POST_register
               (Sample.credentials "new@iitk.ac.in" "long-enough")
               Sample.world)
     = Returns (json 201 (obj1 "message" "User registered successfully")).
Proof.
  split.
  - refine (proj1 (C8_register Sample.env Sample.world _) _ _ _ _ _);
      [vm_compute; reflexivity | reflexivity | reflexivity].
  - refine (proj1 (proj2 (C8_register Sample.env Sample.world _)) _ _ _);
      [vm_compute; reflexivity | reflexivity].
Defined.

(** C9: POST /upload-image runs no gate: the answer does not depend on the
    Authorization header and no token is verified.  When the CDN upload
    resolves, the answer is 200 with the CDN's secure URL; when it fails,
    the answer is 500 "Image upload failed". *)
Theorem C9_upload_image env w req :
  let out := serve env POST_upload_image req w in
  (forall header,
     serve env POST_upload_image (with_authorization req header) w = out)
  /\ existsb is_jwt_call (trace out) = false
  /\ (forall f up,
        file req = Some f ->
        cdn_upload w
          ("data:" +:+ mimetype f +:+ ";base64," +:+ base64 (buffer f))
          "courses" = Returns up ->
        result out
          = Returns (json 200 (JObj [("imageUrl", JStr (secure_url up))])))
  /\ (forall f e,
        file req = Some f ->
        cdn_upload w
          ("data:" +:+ mimetype f +:+ ";base64," +:+ base64 (buffer f))
          "courses" = Throws e ->
        result out = Returns (json 500 (obj1 "error" "Image upload failed"))).
Proof.
  intros out. subst out. unfold serve. simpl app. unfold upload_image.
  repeat split.
  - destruct (file req) as [f|]; [|reflexivity].
    cbn [run try_catch bind call answer fst snd result final trace].
    destruct (cdn_upload w _ _); reflexivity.
  - intros f up -> Hup.
    cbn [run try_catch bind call answer fst snd result final trace].
    rewrite Hup. reflexivity.
  - intros f e -> Hup.
    cbn [run try_catch bind call answer fst snd result final trace].
    rewrite Hup. reflexivity.
Qed.

Lemma C9_upload_image_witness :
  result (serve Sample.env POST_upload_image
            (Sample.upload_request (Some Sample.png)) Sample.world)
  = Returns (json 200
               (JObj [("imageUrl",
                       JStr "https://res.cloudinary.example/a.png")])).
Proof.
  refine (proj1 (proj2 (proj2 (C9_upload_image Sample.env Sample.world
            (Sample.upload_request (Some Sample.png)))))
            Sample.png
            {| secure_url := "https://res.cloudinary.example/a.png" |}
            eq_refl _).
  vm_compute. reflexivity.
Defined.

(** * Further properties *)

(** ** Every route, whatever the outside does *)

Ltac run_step :=
  cbn [run try_catch bind call ret throw fst snd result final trace gated
       message_of pg_error_json auth_error_json TypeError];
  unfold first_row, row_count, message_of;
  match goal with
  | |- context [if ?b then _ else _] => destruct b eqn:?
  | |- context [match ?x with _ => _ end] => destruct x eqn:?
  end.

Ltac run_routes :=
  unfold gated, authenticateToken, upload_image, get_root, get_courses,
    post_courses, put_course, delete_course, register, login;
  repeat run_step;
  cbn [run try_catch bind call ret throw fst snd result final trace
       message_of pg_error_json auth_error_json TypeError].

Lemma absent_false_default o : absent o = false -> default "" o <> "".
Proof.
  destruct o as [s|]; simpl; [|discriminate].
  destruct (String.eqb_spec s ""); [discriminate | auto].
Qed.

Section AnyWorld.

Context {W : Type}.
Variable ans : forall c : Call, W -> Outcome (Result c) * W.

(** The calls of a request: at most one token verification, then at most
    the route's own call. *)
Lemma route_trace env r req w :
  exists pre post,
    trace (run ans (app env r req) w) = (pre ++ post)%list
    /\ (pre = []
        \/ mutating r = true
           /\ exists t, t <> "" /\
                pre = [JwtVerify t (SUPABASE_JWT_SECRET env)])
    /\ (post = [] \/ exists c, route_call r req = Some c /\ post = [c]).
Proof.
  destruct r; cbn [app route_call mutating]; run_routes.
  all: first
    [ exists [], []; split; [reflexivity|]; split; left; reflexivity
    | eexists [], [_]; split; [reflexivity|]; split; [left; reflexivity|];
      right; eexists; split; reflexivity
    | eexists [_], []; split; [reflexivity|]; split; [|left; reflexivity];
      right; split; [reflexivity|]; eexists; split; [|reflexivity];
      apply absent_false_default; assumption
    | eexists [_], [_]; split; [reflexivity|]; split;
      [ right; split; [reflexivity|]; eexists; split; [|reflexivity];
        apply absent_false_default; assumption
      | right; eexists; split; reflexivity ] ].
Qed.


(** X2: the calls of a request are, in this order, at most one token
    verification (on the mutating routes only) and at most the one call of
    the route's own handler; so there are at most two calls, at most one of
    them to the store, and none on a route without a call of its own. *)
Theorem one_call_per_request env r req w :
  let tr := trace (run ans (app env r req) w) in
  (exists pre post,
     tr = (pre ++ post)%list
     /\ (pre = []
         \/ mutating r = true
            /\ exists t, pre = [JwtVerify t (SUPABASE_JWT_SECRET env)])
     /\ (post = [] \/ exists c, route_call r req = Some c /\ post = [c]))
  /\ (length tr <= if mutating r then 2 else 1)%nat
  /\ (length (List.filter is_store_call tr) <= 1)%nat
  /\ (route_call r req = None -> tr = []).
Proof.
  cbv zeta.
  destruct (route_trace env r req w) as (pre & post & -> & Hpre & Hpost).
  split.
  { exists pre, post. split; [reflexivity|]. split; [|exact Hpost].
    destruct Hpre as [-> | (Hm & t & _ & ->)]; eauto. }
  destruct Hpre as [-> | (Hm & t & _ & ->)];
    destruct Hpost as [-> | (c & Hc & ->)]; cbn [List.app length].
  - destruct (mutating r); repeat split; simpl; lia.
  - repeat split; [destruct (mutating r); lia | | congruence].
    simpl. destruct (is_store_call c); simpl; lia.
  - rewrite Hm. repeat split; simpl; try lia.
    destruct r; try discriminate Hm; discriminate.
  - rewrite Hm. repeat split; [lia | | congruence].
    simpl. destruct (is_store_call c); simpl; lia.
Qed.

(** X3: no route signs a token; a token is verified only on the mutating
    routes, first of all calls, against SUPABASE_JWT_SECRET, and never an
    empty one. *)
Theorem token_library_use env r req w :
  let tr := trace (run ans (app env r req) w) in
  (forall payload secret expiresIn, ~ In (JwtSign payload secret expiresIn) tr)
  /\ (forall token secret,
        In (JwtVerify token secret) tr ->
        mutating r = true /\ secret = SUPABASE_JWT_SECRET env /\ token <> ""
        /\ exists rest, tr = JwtVerify token secret :: rest)
  /\ (mutating r = false -> existsb is_jwt_call tr = false).
Proof.
  cbv zeta.
  destruct (route_trace env r req w) as (pre & post & -> & Hpre & Hpost).
  assert (Hpost' : forall c, In c post -> is_jwt_call c = false).
  { destruct Hpost as [-> | (c & Hc & ->)]; [intros c []|].
    intros c' [<- | []]. destruct r; simpl in Hc; try destruct (file req);
      try discriminate Hc; injection Hc as <-; reflexivity. }
  split; [|split].
  - intros payload secret expiresIn [Hin | Hin]%in_app_or.
    + destruct Hpre as [-> | (_ & t & _ & ->)]; [destruct Hin|].
      destruct Hin as [H | []]. discriminate H.
    + apply Hpost' in Hin. discriminate Hin.
  - intros token secret [Hin | Hin]%in_app_or.
    + destruct Hpre as [-> | (Hm & t & Ht & ->)]; [destruct Hin|].
      destruct Hin as [[= <- <-] | []]. eauto.
    + apply Hpost' in Hin. discriminate Hin.
  - intros Hm. destruct Hpre as [-> | (Hm' & _)]; [|congruence].
    cbn [List.app]. destruct (existsb is_jwt_call post) eqn:E; [|reflexivity].
    apply existsb_exists in E as (c & Hc & Hj). rewrite (Hpost' c Hc) in Hj.
    discriminate Hj.
Qed.

End AnyWorld.

(** ** The course handlers, whatever the store replies *)

Section AnyStore.

Context {W : Type}.
Variable ans : forall c : Call, W -> Outcome (Result c) * W.

(** X4: when the store call is rejected, or replies with an error other
    than the unique-key violation, create answers 500 "Failed to add course"
    whatever was thrown; the listing, update and delete answer their own 500
    unless the call was rejected with [null] or [undefined]: their catch
    block reads [error.message] first, which then throws, and no response is
    sent. *)
Theorem store_failure_is_500 req w :
  let sel := fst (ans CoursesSelect w) in
  let ins := fst (ans (CoursesInsert (body_fields req)) w) in
  let upd := fst (ans (CoursesUpdate (body_fields req) (params_id req)) w) in
  let del := fst (ans (CoursesDelete (params_id req)) w) in
  (reply_failed sel = true -> rejected_nullish sel = false ->
     result (run ans (get_courses req) w) = Returns (send 500 "Server error"))
  /\ (some_field_missing (body_fields req) = false ->
      reply_failed ins = true ->
      result (run ans (post_courses req) w)
      = Returns (json 500 (obj1 "error" "Failed to add course")))
  /\ (some_field_missing (body_fields req) = false ->
      reply_failed upd = true -> rejected_nullish upd = false ->
      result (run ans (put_course req) w)
      = Returns (json 500 (obj1 "error" "Failed to update course")))
  /\ (reply_failed del = true -> rejected_nullish del = false ->
      result (run ans (delete_course req) w)
      = Returns (send 500 "Server error"))
  /\ (rejected_nullish sel = true ->
      result (run ans (get_courses req) w) = Throws TypeError)
  /\ (some_field_missing (body_fields req) = false ->
      rejected_nullish upd = true ->
      result (run ans (put_course req) w) = Throws TypeError)
  /\ (rejected_nullish del = true ->
      result (run ans (delete_course req) w) = Throws TypeError).
Proof.
  cbv zeta.
  unfold get_courses, post_courses, put_course, delete_course, reply_failed,
    rejected_nullish.
  repeat apply conj; intros;
    repeat match goal with
           | H : some_field_missing _ = false |- _ => rewrite H; clear H
           end;
    repeat run_step; cbn [nullish] in *; try discriminate;
    cbn [run try_catch bind call ret throw fst snd result final trace
         message_of pg_error_json TypeError];
    reflexivity.
Qed.

(** X5: an empty result set with no error is 200 with an empty array on
    the listing, 201 with no body on create, 404 on update and delete; a
    null result set with no error is 200 null on the listing and 500 on the
    other three. *)
Theorem empty_and_null_results req w :
  let sel := fst (ans CoursesSelect w) in
  let ins := fst (ans (CoursesInsert (body_fields req)) w) in
  let upd := fst (ans (CoursesUpdate (body_fields req) (params_id req)) w) in
  let del := fst (ans (CoursesDelete (params_id req)) w) in
  (reply_data sel = Some (Some []) ->
     result (run ans (get_courses req) w) = Returns (json 200 (JArr [])))
  /\ (reply_data sel = Some None ->
      result (run ans (get_courses req) w) = Returns (json 200 JNull))
  /\ (some_field_missing (body_fields req) = false ->
      reply_data ins = Some (Some []) ->
      result (run ans (post_courses req) w) = Returns (json 201 JUndefined))
  /\ (some_field_missing (body_fields req) = false ->
      reply_data ins = Some None ->
      result (run ans (post_courses req) w)
      = Returns (json 500 (obj1 "error" "Failed to add course")))
  /\ (some_field_missing (body_fields req) = false ->
      reply_data upd = Some (Some []) ->
      result (run ans (put_course req) w)
      = Returns (json 404 (obj1 "error" "Course not found")))
  /\ (some_field_missing (body_fields req) = false ->
      reply_data upd = Some None ->
      result (run ans (put_course req) w)
      = Returns (json 500 (obj1 "error" "Failed to update course")))
  /\ (reply_data del = Some (Some []) ->
      result (run ans (delete_course req) w)
      = Returns (send 404 "Course not found"))
  /\ (reply_data del = Some None ->
      result (run ans (delete_course req) w)
      = Returns (send 500 "Server error")).
Proof.
  cbv zeta.
  unfold get_courses, post_courses, put_course, delete_course, reply_data.
  repeat apply conj; intros;
    repeat match goal with
           | H : some_field_missing _ = false |- _ => rewrite H; clear H
           end;
    cbn [run try_catch bind call ret throw fst snd result final trace].
  all: match goal with
       | H : context [match ?o with Returns _ => _ | Throws _ => _ end]
         |- _ => destruct o as [reply|]; [|discriminate H];
                 destruct (error reply); [discriminate H|];
                 injection H as ->; reflexivity
       end.
Qed.

(** X6: on POST /upload-image, without a file nothing is sent to the CDN
    and the answer is 500; with one, the CDN receives its data URL under the folder "courses". *)
Theorem upload_sends_data_url req w :
  (file req = None ->
     run ans (upload_image req) w
     = {| result := Returns (json 500 (obj1 "error" "Image upload failed"));
          final := w; trace := [] |})
  /\ (forall f, file req = Some f ->
        trace (run ans (upload_image req) w)
        = [CloudinaryUpload
             ("data:" +:+ mimetype f +:+ ";base64," +:+ base64 (buffer f))
             "courses"]).
Proof.
  unfold upload_image. split.
  - intros ->. reflexivity.
  - intros f ->.
    cbn [run try_catch bind call ret throw fst snd result final trace].
    destruct (ans _ w).1; reflexivity.
Qed.

End AnyStore.

(** ** The header the gate reads *)

Lemma split_space_spaceless s : spaceless s = true -> split_space s = [s].
Proof.
  induction s as [|c s IH]; simpl; [reflexivity|].
  intros [Hc Hs]%andb_prop. apply negb_true_iff in Hc. rewrite Hc, (IH Hs).
  reflexivity.
Qed.

Lemma split_space_scheme scheme s :
  spaceless scheme = true ->
  split_space (scheme +:+ " " +:+ s) = scheme :: split_space s.
Proof.
  induction scheme as [|c scheme IH]; simpl; [reflexivity|].
  intros [Hc Hs]%andb_prop. apply negb_true_iff in Hc. rewrite Hc.
  change (scheme +:+ String " " s) with (scheme +:+ " " +:+ s).
  rewrite (IH Hs). reflexivity.
Qed.

Lemma split_space_first tok rest :
  spaceless tok = true -> ends_piece rest = true ->
  exists more, split_space (tok +:+ rest) = tok :: more.
Proof.
  intros Htok Hrest. induction tok as [|c tok IH]; simpl.
  - destruct rest as [|c rest]; simpl in *; [eauto|].
    rewrite Hrest. eauto.
  - simpl in Htok. apply andb_prop in Htok as [Hc Hs].
    apply negb_true_iff in Hc. rewrite Hc.
    destruct (IH Hs) as (more & ->). eauto.
Qed.

Lemma scheme_not_empty scheme s : scheme +:+ " " +:+ s <> "".
Proof. destruct scheme; discriminate. Qed.

Section AnyVerifier.

Context {W : Type}.
Variable ans : forall c : Call, W -> Outcome (Result c) * W.

(** X7: a header of one piece (a bare token, or the word Bearer alone) is
    refused with 401 without any verification. *)
Theorem gate_refuses_single_piece env r req w h :
  mutating r = true ->
  authorization req = Some h -> spaceless h = true ->
  run ans (app env r req) w
  = {| result :=
         Returns (json 401
                    (obj1 "error"
                       (if String.eqb h "" then "Authorization header missing"
                        else "Access token required")));
       final := w; trace := [] |}.
Proof.
  intros Hr Hh Hs.
  destruct r; try discriminate Hr; cbn [app];
    unfold gated, authenticateToken; rewrite Hh; simpl absent;
    (destruct (String.eqb h ""); [reflexivity|]);
    simpl default; rewrite (split_space_spaceless h Hs); reflexivity.
Qed.

(** X8: in a header [<scheme> <token>...] the gate verifies exactly the token:
    any scheme word does, and whatever follows the token after a further
    space is ignored. *)
Theorem gate_verifies_second_piece env req w scheme tok rest :
  authorization req = Some (scheme +:+ " " +:+ tok +:+ rest) ->
  spaceless scheme = true -> spaceless tok = true -> tok <> "" ->
  ends_piece rest = true ->
  let verify := JwtVerify tok (SUPABASE_JWT_SECRET env) in
  run ans (authenticateToken env req) w
  = {| result :=
         match fst (ans verify w) with
         | Returns decoded => Returns (inr (set_user req decoded))
         | Throws _ =>
             Returns (inl (json 403
                             (obj1 "error" "Invalid or expired token")))
         end;
       final := snd (ans verify w);
       trace := [verify] |}.
Proof.
  intros Hh Hscheme Htok Hne Hrest. cbv zeta.
  unfold authenticateToken. rewrite Hh. simpl absent.
  destruct (String.eqb_spec (scheme +:+ " " +:+ tok +:+ rest) "") as [E|_];
    [destruct (scheme_not_empty _ _ E)|].
  simpl default. rewrite (split_space_scheme scheme _ Hscheme).
  destruct (split_space_first tok rest Htok Hrest) as (more & ->).
  simpl absent. destruct (String.eqb_spec tok ""); [congruence|].
  cbn [lookup list_lookup default from_option id].
  cbn [run try_catch bind call ret throw fst snd result final trace].
  destruct (ans _ w).1; reflexivity.
Qed.

End AnyVerifier.

(** X9: a request that is not authorised is answered 401 or 403 on the
    mutating routes, and neither the store nor anything else is touched. *)
Theorem unauthorized_requests_touch_nothing env w r req :
  mutating r = true ->
  ~ authorized env w req ->
  exists res,
    result (serve env r req w) = Returns res
    /\ (status res = 401%Z \/ status res = 403%Z)
    /\ existsb is_store_call (trace (serve env r req w)) = false
    /\ final (serve env r req w) = w.
Proof.
  intros Hr Hno. unfold serve. rewrite (app_mutating env r Hr).
  destruct (presented_token req) as [t|] eqn:Ht.
  - pose proof (gate_answers env w req t Ht) as Hg.
    destruct (jwt_verify w t (SUPABASE_JWT_SECRET env)) as [d|e] eqn:Hv.
    + destruct Hno. exists t, d. auto.
    + rewrite (gate_blocks env w _ req _ (f_equal result Hg)), Hg.
      eexists. split; [reflexivity|]. simpl. auto.
  - assert (Hg : exists msg,
      run answer (authenticateToken env req) w
      = {| result := Returns (inl (json 401 (obj1 "error" msg)));
           final := w; trace := [] |}).
    { unfold presented_token in Ht. unfold authenticateToken.
      destruct (authorization req) as [h|]; simpl absent; [|eauto].
      destruct (String.eqb h ""); [eauto|]. simpl default.
      destruct (split_space h !! 1%nat) as [t|]; simpl absent; [|eauto].
      destruct (String.eqb t ""); [eauto | discriminate]. }
    destruct Hg as (msg & Hg).
    rewrite (gate_blocks env w _ req _ (f_equal result Hg)), Hg.
    eexists. split; [reflexivity|]. simpl. auto.
Qed.

(** ** Provider errors are told apart by substring *)

Lemma append_cons a s t : String a s +:+ t = String a (s +:+ t).
Proof. reflexivity. Qed.

Lemma prefix_spec sub s :
  String.prefix sub s = true <-> exists post, s = sub +:+ post.
Proof.
  revert s. induction sub as [|a sub IH]; intros s; simpl.
  - destruct s; (split; [intros _; eexists; reflexivity | reflexivity]).
  - destruct s as [|b s].
    + split; [discriminate | intros (post & H); discriminate H].
    + simpl. destruct (ascii_dec a b) as [<-|Hab].
      * rewrite IH.
        split; intros (post & H); exists post; rewrite append_cons in *;
          congruence.
      * split; [discriminate|].
        intros (post & H). rewrite append_cons in H. congruence.
Qed.

Lemma includes_spec s sub :
  includes s sub = true <-> exists pre post, s = pre +:+ sub +:+ post.
Proof.
  induction s as [|c s IH].
  - cbn [includes]. rewrite orb_false_r, prefix_spec. split.
    + intros (post & H). exists "", post. exact H.
    + intros ([|? pre] & post & H); [eauto | discriminate H].
  - cbn [includes]. rewrite orb_true_iff, prefix_spec, IH. split.
    + intros [(post & H) | (pre & post & H)].
      * exists "", post. exact H.
      * exists (String c pre), post. rewrite append_cons. congruence.
    + intros ([|a pre] & post & H).
      * left. exists post. exact H.
      * right. exists pre, post. rewrite append_cons in H. congruence.
Qed.

(** X10: given a provider error, register answers 400 exactly when its
    message contains "already registered", and login exactly when it
    contains "Invalid login credentials", anywhere and in that spelling;
    every other error is answered 500. *)
Theorem provider_errors_by_substring env w req reply e :
  let username := prop (req_body req) "username" in
  let password := prop (req_body req) "password" in
  auth_error reply = Some e ->
  (sign_up w username password = Returns reply ->
     (result (serve env POST_register req w)
      = Returns (json 400 (obj1 "message" "Username already exists"))
      <-> exists pre post,
            auth_message e = pre +:+ "already registered" +:+ post)
     /\ (result (serve env POST_register req w)
         = Returns (json 500 (obj1 "message" "Internal Server Error"))
         <-> ~ exists pre post,
                 auth_message e = pre +:+ "already registered" +:+ post))
  /\ (sign_in w username password = Returns reply ->
      (result (serve env POST_login req w)
       = Returns (json 400 (obj1 "message" "Invalid credentials"))
       <-> exists pre post,
             auth_message e = pre +:+ "Invalid login credentials" +:+ post)
      /\ (result (serve env POST_login req w)
          = Returns (json 500 (obj1 "message" "Internal Server Error"))
          <-> ~ exists pre post,
                  auth_message e
                  = pre +:+ "Invalid login credentials" +:+ post)).
Proof.
  cbv zeta. intros He. unfold serve. simpl app. unfold register, login.
  cbn [run try_catch bind call answer fst snd result final trace].
  split; intros ->; rewrite He, <- includes_spec;
    destruct (includes (auth_message e) _);
    cbn [run try_catch bind call ret throw fst snd result final trace];
    (split; split; intros H; try reflexivity; try discriminate H;
     try congruence).
Qed.

(** X11: login when the provider neither reports an error nor returns a
    session, or when the call fails: 500. *)
Theorem login_without_session env w req :
  let username := prop (req_body req) "username" in
  let password := prop (req_body req) "password" in
  (forall reply,
     sign_in w username password = Returns reply ->
     auth_error reply = None -> session reply = None ->
     result (serve env POST_login req w)
     = Returns (json 500 (obj1 "message" "Internal Server Error")))
  /\ (forall err,
        sign_in w username password = Throws err ->
        result (serve env POST_login req w)
        = Returns (json 500 (obj1 "message" "Internal Server Error"))).
Proof.
  cbv zeta. unfold serve. simpl app. unfold login.
  cbn [run try_catch bind call answer fst snd result final trace].
  split.
  - intros reply -> -> ->. reflexivity.
  - intros err ->. reflexivity.
Qed.

(** ** Who writes to the store *)

Section AnyOutside.

Context {W : Type}.
Variable ans : forall c : Call, W -> Outcome (Result c) * W.

(** X13: whatever the services answer, the routes that are not mutating
    never ask the store to insert, update or delete, and apart from the
    listing never call it at all; an insert, update or delete is asked for
    only on a mutating route, as the route's own call, right after a
    verification of a non-empty token that returned. *)
Theorem writes_need_a_verified_token env r req w :
  let tr := trace (run ans (app env r req) w) in
  (mutating r = false -> existsb is_store_write tr = false)
  /\ (mutating r = false -> r <> GET_courses ->
      existsb is_store_call tr = false)
  /\ (forall c, In c tr -> is_store_write c = true ->
        mutating r = true
        /\ route_call r req = Some c
        /\ exists t decoded,
             t <> ""
             /\ fst (ans (JwtVerify t (SUPABASE_JWT_SECRET env)) w)
                = Returns decoded
             /\ tr = [JwtVerify t (SUPABASE_JWT_SECRET env); c]).
Proof.
  cbv zeta. destruct r; cbn [app mutating route_call]; run_routes.
  all: repeat apply conj; intros; try reflexivity; try discriminate;
    try congruence.
  all: repeat match goal with
              | H : In _ _ |- _ => destruct H as [<- | H]
              end;
    try contradiction; try discriminate.
  all: split; [reflexivity|]; split; [reflexivity|]; eexists _, _;
    split; [apply absent_false_default; eassumption|];
    split; [eassumption | reflexivity].
Qed.

End AnyOutside.

(** ** What the mutating handlers read *)

Lemma serve_gated env w r req t decoded :
  mutating r = true ->
  presented_token req = Some t ->
  jwt_verify w t (SUPABASE_JWT_SECRET env) = Returns decoded ->
  result (serve env r req w)
    = result (run answer (handler_of env r (set_user req decoded)) w)
  /\ final (serve env r req w)
     = final (run answer (handler_of env r (set_user req decoded)) w).
Proof.
  intros Hr Ht Hv. unfold serve.
  rewrite (app_mutating env r Hr), (gate_passes env w _ req t decoded Ht Hv).
  auto.
Qed.

(** X18: on the mutating routes the handlers read the id and the five fields
    and nothing else: two authorised requests that agree on those get the
    same answer and leave the same world, whatever else their bodies, their
    tokens or the decoded payloads hold. *)
Theorem only_id_and_five_fields_matter env w r req1 req2 :
  mutating r = true ->
  authorized env w req1 -> authorized env w req2 ->
  params_id req1 = params_id req2 ->
  (forall k, In k required_fields ->
             prop (req_body req1) k = prop (req_body req2) k) ->
  result (serve env r req1 w) = result (serve env r req2 w)
  /\ final (serve env r req1 w) = final (serve env r req2 w).
Proof.
  intros Hr (t1 & d1 & Ht1 & Hv1) (t2 & d2 & Ht2 & Hv2) Hid Hk.
  destruct (serve_gated env w r req1 t1 d1 Hr Ht1 Hv1) as [-> ->].
  destruct (serve_gated env w r req2 t2 d2 Hr Ht2 Hv2) as [-> ->].
  assert (Hb : body_fields req1 = body_fields req2).
  { unfold body_fields, required_fields in *.
    rewrite !Hk by (simpl; tauto). reflexivity. }
  assert (Hh : handler_of env r (set_user req1 d1)
               = handler_of env r (set_user req2 d2)).
  { destruct r; try discriminate Hr; cbn [handler_of];
      unfold post_courses, put_course, delete_course;
      rewrite ?set_user_body;
      change (params_id (set_user req1 d1)) with (params_id req1);
      change (params_id (set_user req2 d2)) with (params_id req2);
      rewrite ?Hb, ?Hid; reflexivity. }
  rewrite Hh. auto.
Qed.

(** ** The further properties on the sample deployment *)

Lemma good_is_authorized h i b :
  presented_token (Sample.request (Some h) i b) = Some "good" ->
  authorized Sample.env Sample.world (Sample.request (Some h) i b).
Proof. intros H. exists "good", Sample.payload. split; [exact H | reflexivity]. Qed.

Lemma store_failure_is_500_witness :
  let req := Sample.request None "1" (Sample.body_of Sample.compilers) in
  result (run Outside.unreachable (put_course req) tt)
  = Returns (json 500 (obj1 "error" "Failed to update course"))
  /\ result (run Outside.rejects_null (put_course req) tt) = Throws TypeError
  /\ result (run Outside.rejects_null (post_courses req) tt)
     = Returns (json 500 (obj1 "error" "Failed to add course")).
Proof.
  intros req.
  pose proof (store_failure_is_500 Outside.unreachable req tt)
    as (_ & _ & Hput & _).
  pose proof (store_failure_is_500 Outside.rejects_null req tt)
    as (_ & Hpost & _ & _ & _ & Hnull & _).
  split; [|split].
  - apply Hput; reflexivity.
  - apply Hnull; reflexivity.
  - apply Hpost; reflexivity.
Defined.

Lemma empty_and_null_results_witness :
  result (run Outside.no_rows
            (post_courses (Sample.request None ""
                             (Sample.body_of Sample.compilers))) tt)
  = Returns (json 201 JUndefined).
Proof.
  refine (proj1 (proj2 (proj2
            (empty_and_null_results Outside.no_rows
               (Sample.request None "" (Sample.body_of Sample.compilers))
               tt))) _ _);
    vm_compute; reflexivity.
Defined.

Lemma upload_sends_data_url_witness :
  trace (run answer (upload_image (Sample.upload_request (Some Sample.png)))
           Sample.world)
  = [CloudinaryUpload "data:image/png;base64,iVA=" "courses"]
  /\ trace (run answer (upload_image (Sample.upload_request None))
              Sample.world) = [].
Proof.
  split.
  - exact (proj2 (upload_sends_data_url answer
                    (Sample.upload_request (Some Sample.png)) Sample.world)
             Sample.png eq_refl).
  - rewrite (proj1 (upload_sends_data_url answer
                      (Sample.upload_request None) Sample.world) eq_refl).
    reflexivity.
Defined.

Lemma gate_refuses_single_piece_witness :
  run answer
    (app Sample.env DELETE_courses_id (Sample.request (Some "good") "1" ∅))
    Sample.world
  = {| result :=
         Returns (json 401 (obj1 "error" "Access token required"));
       final := Sample.world; trace := [] |}.
Proof.
  exact (gate_refuses_single_piece answer Sample.env DELETE_courses_id
           (Sample.request (Some "good") "1" ∅) Sample.world "good"
           eq_refl eq_refl eq_refl).
Defined.

Lemma gate_verifies_second_piece_witness :
  trace (run answer
           (authenticateToken Sample.env
              (Sample.request (Some "Token good and more") "1" ∅))
           Sample.world)
  = [JwtVerify "good" (JStr "shared-secret")].
Proof.
  rewrite (gate_verifies_second_piece answer Sample.env
             (Sample.request (Some "Token good and more") "1" ∅)
             Sample.world "Token" "good" " and more"
             eq_refl eq_refl eq_refl ltac:(discriminate) eq_refl).
  reflexivity.
Defined.

Lemma unauthorized_requests_touch_nothing_witness :
  exists res,
    result (serve Sample.env DELETE_courses_id
              (Sample.request (Some "Bearer forged") "1" ∅) Sample.world)
    = Returns res
    /\ (status res = 401%Z \/ status res = 403%Z)
    /\ existsb is_store_call
         (trace (serve Sample.env DELETE_courses_id
                   (Sample.request (Some "Bearer forged") "1" ∅)
                   Sample.world)) = false
    /\ final (serve Sample.env DELETE_courses_id
                (Sample.request (Some "Bearer forged") "1" ∅) Sample.world)
       = Sample.world.
Proof.
  apply unauthorized_requests_touch_nothing; [reflexivity|].
  intros (t & d & Ht & Hv). vm_compute in Ht. injection Ht as <-.
  vm_compute in Hv. discriminate Hv.
Defined.

Lemma provider_errors_by_substring_witness :
  result (serve Sample.env POST_register
            (Sample.credentials "taken@iitk.ac.in" "long-enough")
            Sample.world)
  = Returns (json 400 (obj1 "message" "Username already exists")).
Proof.
  apply (proj2 (proj1 (proj1 (provider_errors_by_substring Sample.env
           Sample.world
           (Sample.credentials "taken@iitk.ac.in" "long-enough")
           {| session := None;
              auth_error :=
                Some {| auth_message := "User already registered" |} |}
           {| auth_message := "User already registered" |} eq_refl)
           ltac:(vm_compute; reflexivity)))).
  exists "User ", "". reflexivity.
Defined.

Lemma login_without_session_witness :
  result (serve Sample.env POST_login
            (Sample.credentials "asha@iitk.ac.in" "right-password")
            Outside.sessionless)
  = Returns (json 500 (obj1 "message" "Internal Server Error")).
Proof.
  exact (proj1 (login_without_session Sample.env Outside.sessionless
                  (Sample.credentials "asha@iitk.ac.in" "right-password"))
           {| session := None; auth_error := None |}
           eq_refl eq_refl eq_refl).
Defined.

Lemma only_id_and_five_fields_matter_witness :
  let plain := Sample.request (Some "Bearer good") ""
                 (Sample.body_of Sample.compilers) in
  let padded := Sample.request (Some "Basic good trailing") ""
                  (Outside.body_with_id Sample.compilers "0") in
  result (serve Sample.env POST_courses padded Sample.world)
  = result (serve Sample.env POST_courses plain Sample.world).
Proof.
  intros plain padded. symmetry.
  refine (proj1 (only_id_and_five_fields_matter Sample.env Sample.world
                   POST_courses plain padded eq_refl _ _ eq_refl _)).
  - apply good_is_authorized. reflexivity.
  - apply good_is_authorized. reflexivity.
  - intros k [<- | [<- | [<- | [<- | [<- | []]]]]]; vm_compute; reflexivity.
Defined.


Lemma writes_need_a_verified_token_witness :
  let req := Sample.request (Some "Bearer good") ""
               (Sample.body_of Sample.compilers) in
  exists t decoded,
    t <> ""
    /\ fst (answer (JwtVerify t (SUPABASE_JWT_SECRET Sample.env))
              Sample.world) = Returns decoded
    /\ trace (run answer (app Sample.env POST_courses req) Sample.world)
       = [JwtVerify t (SUPABASE_JWT_SECRET Sample.env);
          CoursesInsert Sample.compilers].
Proof.
  intros req.
  destruct (proj2 (proj2 (writes_need_a_verified_token answer Sample.env
              POST_courses req Sample.world))
              (CoursesInsert Sample.compilers)) as (_ & _ & H).
  - vm_compute. right. left. reflexivity.
  - reflexivity.
  - exact H.
Defined.
